(** * Keyserver utility module: [src/service/util.js]

    A shallow embedding of the helper functions of the key server
    (type and format predicates, the tagged-error helper, the random hex
    generator and the request-context helpers) together with the part of
    the JavaScript runtime they rely on: values and their conversions,
    anchored regular expressions, [crypto.randomBytes] and hex encoding. *)

From Stdlib Require Import Strings.Ascii Strings.String Strings.Byte Floats.SpecFloat.
From Stdlib Require Import Bool NArith ZArith Lia List.
Import ListNotations.

(* ================================================================= *)
(** * JavaScript values *)

(** A JavaScript string is a sequence of 16-bit code units. *)
Definition CodeUnit := N.
Definition JsString := list CodeUnit.

(** The code units of an ASCII string literal of the source. *)
Definition lit (s : string) : JsString :=
  map N_of_ascii (list_ascii_of_string s).

Fixpoint str_eqb (a b : JsString) : bool :=
  match a, b with
  | [], [] => true
  | x :: a', y :: b' => N.eqb x y && str_eqb a' b'
  | _, _ => false
  end.

(** A JavaScript number is an IEEE 754 double: signed zeros, infinities,
    NaN, and finite values [(-1)^s * m * 2^e]. *)
Definition JsNumber := spec_float.

(** The integer [z] as a double (exact for |z| < 2^53). *)
Definition Number_of_Z (z : Z) : JsNumber :=
  binary_normalize 53 1024 z 0 false.

(** What a failed conversion of an object to a string raises: the
    [TypeError] of the runtime (no method gives a primitive value, or a
    built-in method refuses its receiver), or the value that a method of
    the object threw, of which this module sees nothing but the identity. *)
Inductive ConversionFailure :=
| RuntimeTypeError
| MethodThrew (thrown : N).

(** What this module can observe of an ordinary object: whether
    [String.prototype] is on its prototype chain, whether it is callable
    (for [typeof]), and the outcome of converting it to a string, which
    runs its [toString]/[valueOf] methods and gives either a string or
    no string ([None]); in the latter case [conversion_failure] is what
    the conversion raises.  Proxy objects are outside this model. *)
Record JsObject := mkObject {
  String_prototype_in_chain : bool;
  callable : bool;
  string_conversion : option JsString;
  conversion_failure : ConversionFailure
}.

(** The language types of ECMAScript 2015. *)
Inductive JsValue :=
| JUndefined
| JNull
| JBoolean (b : bool)
| JNumber (x : JsNumber)
| JString (s : JsString)
| JSymbol
| JObject (o : JsObject).

(** [new String(s)]: a String wrapper object. *)
Definition new_String (s : JsString) : JsValue :=
  JObject (mkObject true false (Some s) RuntimeTypeError).

(** [Object.create(String.prototype)]: inherits from [String.prototype]
    but holds no string data, so [String.prototype.toString] rejects it. *)
Definition Object_create_String_prototype : JsValue :=
  JObject (mkObject true false None RuntimeTypeError).

(** An object literal [{}]; its conversion gives [[object Object]]. *)
Definition plain_object : JsValue :=
  JObject (mkObject false false (Some (lit "[object Object]")) RuntimeTypeError).

(** An object whose [toString] throws a value of its own, here the one
    with the identity 1. *)
Definition throwing_object : JsValue :=
  JObject (mkObject false false None (MethodThrew 1)).

(* ================================================================= *)
(** * Completions: normal return or a thrown exception *)

(** An [Error] instance as [exports.throw] leaves it: its message and the
    two properties the helper sets. *)
Record ErrorObject := mkError {
  err_message : JsString;
  err_status : JsValue;
  err_expose : JsValue
}.

Inductive Exception :=
| TypeError                      (* raised by the runtime *)
| RangeError                     (* raised by the runtime *)
| Thrown (err : ErrorObject)     (* raised by a [throw] statement *)
| ThrownValue (thrown : N)       (* thrown by a method of an input object *)
| ERR_STRING_TOO_LONG.           (* raised by Node's buffer *)

(** What the failed conversion of the object [o] raises. *)
Definition conversion_error (o : JsObject) : Exception :=
  match conversion_failure o with
  | RuntimeTypeError => TypeError
  | MethodThrew thrown => ThrownValue thrown
  end.

Inductive completion (A : Type) : Type :=
| Return (a : A)
| Throw (e : Exception).

Arguments Return {A} a.
Arguments Throw {A} e.

Definition bind {A B} (c : completion A) (k : A -> completion B) : completion B :=
  match c with
  | Return a => k a
  | Throw e => Throw e
  end.

Notation "x <- c ;; k" := (bind c (fun x => k))
  (at level 61, c at next level, right associativity).

(** The evaluation finished without throwing. *)
Definition returns {A} (c : completion A) : bool :=
  match c with Return _ => true | Throw _ => false end.

(* ================================================================= *)
(** * Operators and conversions *)

(** [Boolean(v)], also the test of [||], [!] and [?:]. *)
Definition ToBoolean (v : JsValue) : bool :=
  match v with
  | JUndefined | JNull => false
  | JBoolean b => b
  | JNumber (S754_zero _) | JNumber S754_nan => false
  | JNumber _ => true
  | JString [] => false
  | JString (_ :: _) => true
  | JSymbol => true
  | JObject _ => true
  end.

(** [a || b] *)
Definition js_or (a b : JsValue) : JsValue :=
  if ToBoolean a then a else b.

(** [typeof v] *)
Definition typeof (v : JsValue) : JsString :=
  match v with
  | JUndefined => lit "undefined"
  | JNull => lit "object"
  | JBoolean _ => lit "boolean"
  | JNumber _ => lit "number"
  | JString _ => lit "string"
  | JSymbol => lit "symbol"
  | JObject o => if callable o then lit "function" else lit "object"
  end.

(** [v === 'literal']: strict equality against a primitive string holds
    only for a primitive string with the same code units; no conversion
    takes place, so a String object is never [===] to a literal. *)
Definition strict_equal_string (v : JsValue) (s : JsString) : bool :=
  match v with
  | JString t => str_eqb t s
  | _ => false
  end.

(** [String.prototype.isPrototypeOf(v)]: false for every primitive. *)
Definition String_prototype_isPrototypeOf (v : JsValue) : bool :=
  match v with
  | JObject o => String_prototype_in_chain o
  | _ => false
  end.


(* ================================================================= *)
(** * Regular expressions *)

(** The patterns of this module use character classes, sequencing,
    alternation and the quantifiers [+], [*], [{n}], [{n,m}] and [{n,}];
    each is written [/^...$/] without flags and is only ever used through
    [RegExp.prototype.test].  With both anchors and neither back
    references nor look-around, [test] answers whether the whole input
    belongs to the language of the pattern, which is decided here by
    successive derivatives of the pattern. *)
Inductive regex :=
| Never                                               (* no input at all *)
| Epsilon                                             (* the empty input *)
| Class (negated : bool) (ranges : list (CodeUnit * CodeUnit))
| Seq (r1 r2 : regex)
| Alt (r1 r2 : regex)
| Star (r : regex).

Definition in_ranges (ranges : list (CodeUnit * CodeUnit)) (c : CodeUnit) : bool :=
  existsb (fun '(lo, hi) => N.leb lo c && N.leb c hi) ranges.

(** [[...]] accepts the code units inside one of its ranges, [[^...]]
    those outside all of them. *)
Definition class_test (negated : bool) (ranges : list (CodeUnit * CodeUnit))
  (c : CodeUnit) : bool :=
  if negated then negb (in_ranges ranges c) else in_ranges ranges c.

(** A single character, given as an ASCII literal. *)
Definition Chr (a : ascii) : regex :=
  Class false [(N_of_ascii a, N_of_ascii a)].

(** [r+] *)
Definition Plus (r : regex) : regex := Seq r (Star r).

(** [r{n}] *)
Fixpoint Repeat (n : nat) (r : regex) : regex :=
  match n with
  | O => Epsilon
  | S n' => Seq r (Repeat n' r)
  end.

(** [r{0,k}] *)
Fixpoint UpTo (k : nat) (r : regex) : regex :=
  match k with
  | O => Epsilon
  | S k' => Alt Epsilon (Seq r (UpTo k' r))
  end.

(** [r{lo,hi}] *)
Definition RepeatRange (lo hi : nat) (r : regex) : regex :=
  Seq (Repeat lo r) (UpTo (hi - lo) r).

(** [r{lo,}] *)
Definition AtLeast (lo : nat) (r : regex) : regex :=
  Seq (Repeat lo r) (Star r).

Fixpoint nullable (r : regex) : bool :=
  match r with
  | Never => false
  | Epsilon => true
  | Class _ _ => false
  | Seq r1 r2 => nullable r1 && nullable r2
  | Alt r1 r2 => nullable r1 || nullable r2
  | Star _ => true
  end.

Fixpoint derive (c : CodeUnit) (r : regex) : regex :=
  match r with
  | Never => Never
  | Epsilon => Never
  | Class negated ranges => if class_test negated ranges c then Epsilon else Never
  | Seq r1 r2 =>
      if nullable r1
      then Alt (Seq (derive c r1) r2) (derive c r2)
      else Seq (derive c r1) r2
  | Alt r1 r2 => Alt (derive c r1) (derive c r2)
  | Star r1 => Seq (derive c r1) (Star r1)
  end.

(** Does the whole of [s] match [r]? *)
Fixpoint full_match (r : regex) (s : JsString) : bool :=
  match s with
  | [] => nullable r
  | c :: s' => full_match (derive c r) s'
  end.

(** The language of a pattern, as a relation. *)
Inductive in_language : regex -> JsString -> Prop :=
| L_Epsilon : in_language Epsilon []
| L_Class negated ranges c :
    class_test negated ranges c = true ->
    in_language (Class negated ranges) [c]
| L_Seq r1 r2 s1 s2 :
    in_language r1 s1 -> in_language r2 s2 ->
    in_language (Seq r1 r2) (s1 ++ s2)
| L_Alt_l r1 r2 s : in_language r1 s -> in_language (Alt r1 r2) s
| L_Alt_r r1 r2 s : in_language r2 s -> in_language (Alt r1 r2) s
| L_Star_nil r : in_language (Star r) []
| L_Star_app r s1 s2 :
    in_language r s1 -> in_language (Star r) s2 ->
    in_language (Star r) (s1 ++ s2).

Arguments L_Seq {r1 r2 s1 s2} _ _.
Arguments L_Star_app {r s1 s2} _ _.

#[local] Hint Constructors in_language : core.

(* ================================================================= *)
(** * Numbers as sizes, [crypto.randomBytes] and hex encoding *)

Definition Number_isNaN (x : JsNumber) : bool :=
  match x with S754_nan => true | _ => false end.

(** [x < 0]: holds for neither zero nor NaN. *)
Definition Number_negative (x : JsNumber) : bool :=
  match x with
  | S754_infinity true | S754_finite true _ _ => true
  | _ => false
  end.

(** [x > k] for an integer [k >= 0]. *)
Definition Number_above (x : JsNumber) (k : Z) : bool :=
  match x with
  | S754_infinity false => true
  | S754_finite false m e =>
      if (0 <=? e)%Z
      then (k <? Z.shiftl (Zpos m) e)%Z
      else (Z.shiftl k (- e) <? Zpos m)%Z
  | _ => false
  end.

(** [x >>> 0]: truncate toward zero, then wrap modulo 2^32. *)
Definition ToUint32 (x : JsNumber) : N :=
  match x with
  | S754_finite s m e =>
      let i := Z.shiftl (Zpos m) e in
      Z.to_N ((if s then - i else i) mod 2 ^ 32)
  | _ => 0%N
  end.

(** The operating system's random source, as the unbounded sequence of
    bytes it is going to deliver. *)
Definition Entropy := nat -> byte.

Definition read (n : nat) (src : Entropy) : list byte := map src (seq 0 n).
Definition advance (n : nat) (src : Entropy) : Entropy := fun i => src (n + i).

(** The largest size [crypto.randomBytes] accepts. *)
Definition kMaxLength : Z := 2 ^ 31 - 1.

(** [crypto.randomBytes(size)] of Node.js, synchronous form: the size has
    to be a number ([TypeError] otherwise) that is neither NaN, negative
    nor above the limit ([RangeError] otherwise); the buffer holds the
    next [size >>> 0] bytes of the random source. *)
Definition randomBytes (size : JsValue) (src : Entropy)
  : completion (list byte * Entropy) :=
  match size with
  | JNumber x =>
      if Number_isNaN x || Number_above x kMaxLength || Number_negative x
      then Throw RangeError
      else
        let n := N.to_nat (ToUint32 x) in
        Return (read n src, advance n src)
  | _ => Throw TypeError
  end.

(** The digits [0-9a-f] of [Buffer.prototype.toString('hex')]. *)
Definition hex_digit (n : N) : CodeUnit :=
  if (n <? 10)%N then (48 + n)%N else (87 + n)%N.

Definition hex_of_byte (b : byte) : JsString :=
  let n := Byte.to_N b in
  [hex_digit (n / 16); hex_digit (n mod 16)].

(** The hexadecimal text of a buffer: two digits a byte. *)
Definition hex_text (buf : list byte) : JsString :=
  flat_map hex_of_byte buf.

(** The longest string of the runtime: [buffer.constants.MAX_STRING_LENGTH]
    of Node.js on a 64-bit build, 2^29 - 24 code units. *)
Definition MAX_STRING_LENGTH : N := 2 ^ 29 - 24.

(** [buf.toString('hex')]: the hexadecimal text of the buffer, unless it
    would be longer than a string can be. *)
Definition Buffer_toString_hex (buf : list byte) : completion JsString :=
  if (2 * N.of_nat (length buf) <=? MAX_STRING_LENGTH)%N
  then Return (hex_text buf)
  else Throw ERR_STRING_TOO_LONG.

(* ================================================================= *)
(** * The patterns of the module *)

Definition range (lo hi : ascii) : CodeUnit * CodeUnit :=
  (N_of_ascii lo, N_of_ascii hi).
Definition one (a : ascii) : CodeUnit * CodeUnit := range a a.
Arguments range (lo hi)%_char.
Arguments one a%_char.
Arguments Chr a%_char.

(** [[a-fA-F0-9]] *)
Definition hex_class : regex :=
  Class false [range "a" "f"; range "A" "F"; range "0" "9"].

(** The pattern of [isKeyId]: sixteen hex digits between [^] and [$]. *)
Definition keyid_pattern : regex := Repeat 16 hex_class.

(** The pattern of [isFingerPrint]: forty hex digits between [^] and [$]. *)
Definition fingerprint_pattern : regex := Repeat 40 hex_class.

(** The white space class [\s]: tab to carriage return, space, no-break
    space, U+1680, U+2000 to U+200A, the line and paragraph separators,
    U+202F, U+205F, U+3000 and the byte order mark. *)
Definition white_space : list (CodeUnit * CodeUnit) :=
  [(9, 13); (32, 32); (160, 160); (5760, 5760); (8192, 8202);
   (8232, 8233); (8239, 8239); (8287, 8287); (12288, 12288);
   (65279, 65279)]%N.

(** [.]: any code unit but a line terminator. *)
Definition dot : regex :=
  Class true [(10, 10); (13, 13); (8232, 8233)]%N.

(** The double quote, code unit 34. *)
Definition quote : regex := Class false [(34, 34)%N].

(** The negated class of the local part: none of the angle brackets,
    parentheses, square brackets, backslash, dot, comma, semicolon, colon,
    white space, at sign or double quote. *)
Definition local_atom : regex :=
  Class true
    ([one "<"; one ">"; one "("; one ")"; one "["; one "]"; one "\";
      one "."; one ","; one ";"; one ":"]
     ++ white_space ++ [one "@"; (34, 34)%N]).

Definition digit : regex := Class false [range "0" "9"].
Definition letter : regex := Class false [range "a" "z"; range "A" "Z"].

(** [[a-zA-Z\-0-9]] *)
Definition label_char : regex :=
  Class false [range "a" "z"; range "A" "Z"; one "-"; range "0" "9"].

(** The pattern of [isEmail], group by group:
    a local part that is either dot-separated runs of [local_atom] or a
    quoted non-empty text; the at sign; a domain that is either a
    bracketed quadruple of one to three digits or one or more labels,
    each followed by a dot, and then at least two letters. *)
Definition email_pattern : regex :=
  Seq
    (Alt
       (Seq (Plus local_atom) (Star (Seq (Chr ".") (Plus local_atom))))
       (Seq quote (Seq (Plus dot) quote)))
    (Seq (Chr "@")
       (Alt
          (Seq (Chr "[")
             (Seq (RepeatRange 1 3 digit)
                (Seq (Chr ".")
                   (Seq (RepeatRange 1 3 digit)
                      (Seq (Chr ".")
                         (Seq (RepeatRange 1 3 digit)
                            (Seq (Chr ".")
                               (Seq (RepeatRange 1 3 digit) (Chr "]")))))))))
          (Seq (Plus (Seq (Plus label_char) (Chr "."))) (AtLeast 2 letter)))).

(* ================================================================= *)
(** * The request context *)

(** What the web framework hands to the helpers: the secure flag, the
    header lookup [ctx.get], the protocol and the host. *)
Record RequestContext := mkContext {
  secure : bool;
  get : JsString -> JsValue;
  protocol : JsString;
  host : JsString
}.

(** The value of [origin]: an object with a protocol and a host. *)
Record Origin := mkOrigin {
  origin_protocol : JsString;
  origin_host : JsString
}.

(* ================================================================= *)
(** * Vocabulary of the properties *)

(** One of [0-9], [A-F], [a-f]. *)
Definition is_hex_digit (c : CodeUnit) : bool :=
  ((48 <=? c) && (c <=? 57) || (65 <=? c) && (c <=? 70)
   || (97 <=? c) && (c <=? 102))%N.

(** One of [0-9], [a-f]. *)
Definition is_lower_hex_digit (c : CodeUnit) : bool :=
  ((48 <=? c) && (c <=? 57) || (97 <=? c) && (c <=? 102))%N.

(** The characters a textual value consists of: those of a primitive
    string, and for an object that inherits from [String.prototype] the
    string it converts to, when it converts at all.  Every other value
    is not textual. *)
Definition text_of (v : JsValue) : option JsString :=
  match v with
  | JString s => Some s
  | JObject o =>
      if String_prototype_in_chain o then string_conversion o else None
  | _ => None
  end.

(** What converting the value to a string raises when it raises: the
    exception of the object for an object, the [TypeError] of the
    runtime otherwise. *)
Definition failure_of (v : JsValue) : Exception :=
  match v with
  | JObject o => conversion_error o
  | _ => TypeError
  end.

(** The double [x] is exactly the integer [n], and [n] is a size that
    [crypto.randomBytes] accepts. *)
Definition is_byte_count (x : JsNumber) (n : nat) : Prop :=
  (Z.of_nat n <= kMaxLength)%Z /\
  match x with
  | S754_zero _ => n = 0
  | S754_finite false m e =>
      if (0 <=? e)%Z
      then Z.of_nat n = (Zpos m * 2 ^ e)%Z
      else Zpos m = (Z.of_nat n * 2 ^ (- e))%Z
  | _ => False
  end.

(** The value of a hexadecimal digit, 16 for any other code unit. *)
Definition hex_value (c : CodeUnit) : N :=
  (if (48 <=? c) && (c <=? 57) then c - 48
   else if (97 <=? c) && (c <=? 102) then c - 87
   else if (65 <=? c) && (c <=? 70) then c - 55
   else 16)%N.

(** The hex text of the next [n] random bytes, and the source after
    them. *)
Definition hex_of_entropy (n : nat) (src : Entropy) : JsString * Entropy :=
  (hex_text (read n src), advance n src).

(** A request for the host example.com over plain http at the server,
    with the given secure flag and [X-Forwarded-Proto] header; every
    other header is absent, for which the framework answers with the
    empty string. *)
Definition example_context (is_secure : bool) (forwarded : JsValue)
  : RequestContext :=
  {| secure := is_secure;
     get := fun name =>
       if str_eqb name (lit "X-Forwarded-Proto") then forwarded
       else JString [];
     protocol := lit "http";
     host := lit "example.com" |}.

(** A random source that delivers the bytes 0, 1, 2, ... in turn. *)
Definition counting_source : Entropy :=
  fun i => match Byte.of_nat (i mod 256) with Some b => b | None => x00 end.

(* ================================================================= *)
(** * Analyses of patterns and further vocabulary *)

(** Can the code unit [c] occur in an input that matches [r]?  An upper
    approximation: every class of the pattern is asked. *)
Fixpoint may_match (r : regex) (c : CodeUnit) : bool :=
  match r with
  | Never | Epsilon => false
  | Class negated ranges => class_test negated ranges c
  | Seq r1 r2 | Alt r1 r2 => may_match r1 c || may_match r2 c
  | Star r1 => may_match r1 c
  end.

(** A lower bound on the length of the inputs that match [r]; [None]
    when the shape of [r] alone shows that nothing matches. *)
Fixpoint min_length (r : regex) : option nat :=
  match r with
  | Never => None
  | Epsilon => Some 0
  | Class _ _ => Some 1
  | Seq r1 r2 =>
      match min_length r1, min_length r2 with
      | Some a, Some b => Some (a + b)
      | _, _ => None
      end
  | Alt r1 r2 =>
      match min_length r1, min_length r2 with
      | Some a, Some b => Some (Nat.min a b)
      | Some a, None => Some a
      | None, o => o
      end
  | Star _ => Some 0
  end.

(** Boolean tests on code units, read as comparisons. *)
Ltac bool_to_prop :=
  repeat (rewrite ?orb_false_r, ?orb_true_iff, ?andb_true_iff, ?negb_true_iff,
            ?orb_false_iff, ?andb_false_iff,
            ?N.leb_le, ?N.leb_gt, ?N.eqb_eq, ?N.eqb_neq in *).

(** Unfold the classes of a pattern down to those tests. *)
Ltac unfold_classes :=
  cbv -[N.leb N.eqb andb orb negb iff] in *.

(** The two groups of [email_pattern] on either side of the at sign. *)
Definition email_local_part : regex :=
  Alt
    (Seq (Plus local_atom) (Star (Seq (Chr ".") (Plus local_atom))))
    (Seq quote (Seq (Plus dot) quote)).

Definition email_domain_part : regex :=
  Alt
    (Seq (Chr "[")
       (Seq (RepeatRange 1 3 digit)
          (Seq (Chr ".")
             (Seq (RepeatRange 1 3 digit)
                (Seq (Chr ".")
                   (Seq (RepeatRange 1 3 digit)
                      (Seq (Chr ".")
                         (Seq (RepeatRange 1 3 digit) (Chr "]")))))))))
    (Seq (Plus (Seq (Plus label_char) (Chr "."))) (AtLeast 2 letter)).

(** Line feed, carriage return, line separator, paragraph separator. *)
Definition is_line_terminator (c : CodeUnit) : bool :=
  ((c =? 10) || (c =? 13) || (c =? 8232) || (c =? 8233))%N.

(** One of [a-z], [A-Z]. *)
Definition is_letter (c : CodeUnit) : bool :=
  ((97 <=? c) && (c <=? 122) || (65 <=? c) && (c <=? 90))%N.

(** A letter, a digit or the hyphen. *)
Definition is_label_char (c : CodeUnit) : bool :=
  (is_letter c || (48 <=? c) && (c <=? 57) || (c =? 45))%N.

(** What a domain is written with: label characters, the dot and the
    square brackets. *)
Definition is_domain_char (c : CodeUnit) : bool :=
  (is_label_char c || (c =? 46) || (c =? 91) || (c =? 93))%N.

(** ASCII case mappings on code units. *)
Definition to_lower (c : CodeUnit) : CodeUnit :=
  (if (65 <=? c) && (c <=? 90) then c + 32 else c)%N.

Definition to_upper (c : CodeUnit) : CodeUnit :=
  (if (97 <=? c) && (c <=? 122) then c - 32 else c)%N.

(** Labels, each followed by a dot: the front of a domain name. *)
Definition dotted (labels : list JsString) : JsString :=
  flat_map (fun l => l ++ lit ".") labels.

(** Reading hexadecimal text back: two digits of either case a byte. *)
Fixpoint hex_decode (s : JsString) : option (list byte) :=
  match s with
  | [] => Some []
  | hi :: lo :: rest =>
      if (hex_value hi <? 16)%N && (hex_value lo <? 16)%N
      then
        match Byte.of_N (16 * hex_value hi + hex_value lo), hex_decode rest with
        | Some b, Some bs => Some (b :: bs)
        | _, _ => None
        end
      else None
  | [_] => None
  end.

(* ================================================================= *)
(** * The functions of [util.js] *)

Section Util.

(** [Number::toString], the shortest decimal text that reads back as the
    same double.  The embedding does not compute it: it is a parameter,
    and every property below holds whichever function it is. *)
Variable Number_toString : JsNumber -> JsString.

(** The abstract operation [ToString]. *)
Definition ToString (v : JsValue) : completion JsString :=
  match v with
  | JUndefined => Return (lit "undefined")
  | JNull => Return (lit "null")
  | JBoolean true => Return (lit "true")
  | JBoolean false => Return (lit "false")
  | JNumber x => Return (Number_toString x)
  | JString s => Return s
  | JSymbol => Throw TypeError
  | JObject o =>
      match string_conversion o with
      | Some s => Return s
      | None => Throw (conversion_error o)
      end
  end.

(** [pattern.test(v)] for an anchored pattern without flags: the argument
    is converted to a string first. *)
Definition RegExp_test (pattern : regex) (v : JsValue) : completion bool :=
  s <- ToString v ;;
  Return (full_match pattern s).

(** [new Error(message)]: an [undefined] message leaves the inherited
    empty message, any other is converted to a string. *)
Definition new_Error (message : JsValue) : completion ErrorObject :=
  match message with
  | JUndefined => Return (mkError [] JUndefined JUndefined)
  | _ => s <- ToString message ;; Return (mkError s JUndefined JUndefined)
  end.

(** The functions are called as methods of the exports object, so
    [this.isString] and [this.checkHTTPS] are the functions below. *)

Definition isString (data : JsValue) : bool :=
  strict_equal_string (JString (typeof data)) (lit "string")
  || String_prototype_isPrototypeOf data.

Definition isTrue (data : JsValue) : bool :=
  if isString data
  then strict_equal_string data (lit "true")
  else ToBoolean data.

Definition isKeyId (data : JsValue) : completion bool :=
  if negb (isString data)
  then Return false
  else RegExp_test keyid_pattern data.

Definition isFingerPrint (data : JsValue) : completion bool :=
  if negb (isString data)
  then Return false
  else RegExp_test fingerprint_pattern data.

Definition isEmail (data : JsValue) : completion bool :=
  if negb (isString data)
  then Return false
  else RegExp_test email_pattern data.

Definition throw (status message : JsValue) : completion JsValue :=
  err <- new_Error message ;;
  let err := mkError (err_message err) status (err_expose err) in
  let err := mkError (err_message err) (err_status err) (JBoolean true) in
  Throw (Thrown err).

Definition random (bytes : JsValue) (src : Entropy)
  : completion (JsString * Entropy) :=
  let bytes := js_or bytes (JNumber (Number_of_Z 16)) in
  r <- randomBytes bytes src ;;
  s <- Buffer_toString_hex (fst r) ;;
  Return (s, snd r).

Definition checkHTTP (ctx : RequestContext) : bool :=
  negb (secure ctx)
  && strict_equal_string (get ctx (lit "X-Forwarded-Proto")) (lit "http").

Definition checkHTTPS (ctx : RequestContext) : bool :=
  secure ctx
  || strict_equal_string (get ctx (lit "X-Forwarded-Proto")) (lit "https").

Definition origin (ctx : RequestContext) : Origin :=
  {| origin_protocol := if checkHTTPS ctx then lit "https" else protocol ctx;
     origin_host := host ctx |}.

Definition url (o : Origin) (resource : JsValue) : completion JsString :=
  r <- ToString (js_or resource (JString [])) ;;
  Return (origin_protocol o ++ lit "://" ++ origin_host o ++ r).

Definition hkpUrl (ctx : RequestContext) : JsString :=
  (if checkHTTPS ctx then lit "hkps://" else lit "hkp://") ++ host ctx.


(* ================================================================= *)
(** * Strings and strict equality *)

Lemma str_eqb_eq (a b : JsString) : str_eqb a b = true <-> a = b.
Proof.
  revert b; induction a as [|x a IH]; intros [|y b]; simpl;
    try (split; [discriminate | congruence]); try tauto.
  rewrite andb_true_iff, N.eqb_eq, IH.
  split; [intros [-> ->]; reflexivity | intros [= -> ->]; auto].
Qed.

Lemma strict_equal_string_true (v : JsValue) (s : JsString) :
  strict_equal_string v s = true <-> v = JString s.
Proof.
  destruct v; simpl; try (split; [discriminate | congruence]).
  rewrite str_eqb_eq. split; congruence.
Qed.

Lemma typeof_string (v : JsValue) :
  strict_equal_string (JString (typeof v)) (lit "string") = true
  <-> exists s, v = JString s.
Proof.
  destruct v as [| | b | x | s | | o]; simpl typeof;
    try (split; [discriminate | intros [? [=]]]).
  - split; eauto.
  - destruct (callable o); (split; [discriminate | intros [? [=]]]).
Qed.

Lemma isString_cases (v : JsValue) :
  isString v = true
  <-> (exists s, v = JString s)
      \/ (exists o, v = JObject o /\ String_prototype_in_chain o = true).
Proof.
  unfold isString. rewrite orb_true_iff, typeof_string.
  split; (intros [H | H]; [left; exact H | right]).
  - destruct v; simpl in H; try discriminate; eauto.
  - destruct H as (o & -> & H). exact H.
Qed.

(** A textual value is one that [isString] accepts; it has characters
    unless it is an object whose string conversion fails. *)
Lemma text_of_isString (v : JsValue) (s : JsString) :
  text_of v = Some s -> isString v = true.
Proof.
  intros H. apply isString_cases. destruct v; simpl in H; try discriminate.
  - left; eauto.
  - right. exists o. destruct (String_prototype_in_chain o); [auto | discriminate].
Qed.

Lemma text_of_ToString (v : JsValue) :
  isString v = true ->
  ToString v
  = match text_of v with Some s => Return s | None => Throw (failure_of v) end.
Proof.
  intros H. apply isString_cases in H as [[s ->] | (o & -> & H)]; simpl.
  - reflexivity.
  - rewrite H. reflexivity.
Qed.

(* ================================================================= *)
(** * The derivative matcher decides the language of a pattern *)

Lemma in_language_Never_inv {s : JsString} : ~ in_language Never s.
Proof. intros H; inversion H. Qed.

Lemma in_language_Epsilon_inv (s : JsString) : in_language Epsilon s -> s = [].
Proof. intros H; inversion H; reflexivity. Qed.

Lemma in_language_Class_inv neg rs (s : JsString) :
  in_language (Class neg rs) s -> exists c, s = [c] /\ class_test neg rs c = true.
Proof. intros H; inversion H; subst; eauto. Qed.

Lemma in_language_Seq_inv r1 r2 (s : JsString) :
  in_language (Seq r1 r2) s ->
  exists s1 s2, s = s1 ++ s2 /\ in_language r1 s1 /\ in_language r2 s2.
Proof. intros H; inversion H; subst; eauto. Qed.

Lemma in_language_Alt_inv r1 r2 (s : JsString) :
  in_language (Alt r1 r2) s -> in_language r1 s \/ in_language r2 s.
Proof. intros H; inversion H; subst; auto. Qed.

Lemma in_language_Seq_cons r1 r2 c (s1 s2 : JsString) :
  in_language r1 (c :: s1) -> in_language r2 s2 ->
  in_language (Seq r1 r2) (c :: s1 ++ s2).
Proof. intros H1 H2. apply (L_Seq H1 H2). Qed.

Lemma nullable_in_language (r : regex) :
  nullable r = true <-> in_language r [].
Proof.
  induction r as [| | neg rs | r1 IH1 r2 IH2 | r1 IH1 r2 IH2 | r IH]; simpl.
  - split; [discriminate | intros H; destruct (in_language_Never_inv H)].
  - split; auto.
  - split; [discriminate |].
    intros H. apply in_language_Class_inv in H as (c & [=] & _).
  - rewrite andb_true_iff, IH1, IH2. split.
    + intros [H1 H2]. apply (L_Seq H1 H2).
    + intros H. apply in_language_Seq_inv in H as (s1 & s2 & E & H1 & H2).
      symmetry in E. apply app_eq_nil in E as [-> ->]. auto.
  - rewrite orb_true_iff, IH1, IH2. split.
    + intros [H | H]; auto.
    + apply in_language_Alt_inv.
  - split; auto.
Qed.

Lemma in_language_Star_cons (r : regex) (c : CodeUnit) (s : JsString) :
  in_language (Star r) (c :: s) ->
  exists s1 s2, s = s1 ++ s2 /\ in_language r (c :: s1) /\ in_language (Star r) s2.
Proof.
  intros H. remember (Star r) as r' eqn:Er. remember (c :: s) as w eqn:Ew.
  revert s Ew.
  induction H as [| | | | | | r0 s1 s2 H1 _ H2 IH2]; intros w Ew; try discriminate.
  injection Er as ->.
  destruct s1 as [|c1 s1]; simpl in Ew.
  - apply IH2; auto.
  - injection Ew as -> <-. eauto.
Qed.

Lemma derive_in_language (r : regex) :
  forall c s, in_language (derive c r) s <-> in_language r (c :: s).
Proof.
  induction r as [| | neg rs | r1 IH1 r2 IH2 | r1 IH1 r2 IH2 | r IH];
    intros c s; simpl.
  - split; intros H; destruct (in_language_Never_inv H).
  - split; intros H.
    + destruct (in_language_Never_inv H).
    + apply in_language_Epsilon_inv in H. discriminate.
  - destruct (class_test neg rs c) eqn:E; split; intros H.
    + apply in_language_Epsilon_inv in H as ->. constructor; assumption.
    + apply in_language_Class_inv in H as (c' & [= -> ->] & _). constructor.
    + destruct (in_language_Never_inv H).
    + apply in_language_Class_inv in H as (c' & [= -> ->] & H). congruence.
  - assert (Hcons : forall w, in_language (Seq (derive c r1) r2) w ->
                              in_language (Seq r1 r2) (c :: w)).
    { intros w H. apply in_language_Seq_inv in H as (s1 & s2 & -> & H1 & H2).
      apply in_language_Seq_cons; [apply IH1|]; assumption. }
    destruct (nullable r1) eqn:N; split; intros H.
    + apply in_language_Alt_inv in H as [H | H]; [auto |].
      apply IH2 in H. apply nullable_in_language in N. apply (L_Seq N H).
    + apply in_language_Seq_inv in H as (s1 & s2 & E & H1 & H2).
      destruct s1 as [|c1 s1]; simpl in E.
      * subst s2. apply L_Alt_r, IH2. assumption.
      * injection E as -> ->. apply L_Alt_l. constructor; [apply IH1|]; assumption.
    + auto.
    + apply in_language_Seq_inv in H as (s1 & s2 & E & H1 & H2).
      destruct s1 as [|c1 s1]; simpl in E.
      * apply nullable_in_language in H1. congruence.
      * injection E as -> ->. constructor; [apply IH1|]; assumption.
  - split; intros H.
    + apply in_language_Alt_inv in H as [H | H];
        [apply L_Alt_l, IH1 | apply L_Alt_r, IH2]; assumption.
    + apply in_language_Alt_inv in H as [H | H];
        [apply L_Alt_l, IH1 | apply L_Alt_r, IH2]; assumption.
  - split; intros H.
    + apply in_language_Seq_inv in H as (s1 & s2 & -> & H1 & H2).
      apply IH in H1. apply (L_Star_app H1 H2).
    + apply in_language_Star_cons in H as (s1 & s2 & -> & H1 & H2).
      constructor; [apply IH|]; assumption.
Qed.

Theorem full_match_in_language (s : JsString) :
  forall r, full_match r s = true <-> in_language r s.
Proof.
  induction s as [|c s IH]; intros r; simpl.
  - apply nullable_in_language.
  - rewrite IH. apply derive_in_language.
Qed.

(** ** Runs of one character class *)

Lemma Repeat_Class_language neg rs (n : nat) :
  forall s : JsString,
    in_language (Repeat n (Class neg rs)) s
    <-> length s = n /\ Forall (fun c => class_test neg rs c = true) s.
Proof.
  induction n as [|n IH]; intros s; simpl.
  - split.
    + intros H. apply in_language_Epsilon_inv in H as ->. auto.
    + intros [H _]. apply length_zero_iff_nil in H as ->. constructor.
  - split.
    + intros H. apply in_language_Seq_inv in H as (s1 & s2 & -> & H1 & H2).
      apply in_language_Class_inv in H1 as (c & -> & Hc).
      apply IH in H2 as [Hl Hf]. simpl. auto.
    + intros [Hl Hf]. destruct s as [|c s]; [discriminate |].
      inversion Hf; subst. injection Hl as Hl.
      change (c :: s) with ([c] ++ s).
      apply L_Seq; [constructor; assumption | apply IH; auto].
Qed.

Lemma forallb_false_Exists (f : CodeUnit -> bool) (s : JsString) :
  forallb f s = false <-> Exists (fun c => f c = false) s.
Proof.
  induction s as [|c s IH]; simpl.
  - split; [discriminate | intros H; inversion H].
  - rewrite andb_false_iff, IH. split.
    + intros [H | H]; [apply Exists_cons_hd | apply Exists_cons_tl]; assumption.
    + intros H. inversion H; subst; auto.
Qed.

Lemma hex_class_test (c : CodeUnit) :
  class_test false [range "a" "f"; range "A" "F"; range "0" "9"] c
  = is_hex_digit c.
Proof.
  unfold class_test, in_ranges, is_hex_digit, range. simpl.
  destruct (97 <=? c)%N, (c <=? 102)%N, (65 <=? c)%N, (c <=? 70)%N,
    (48 <=? c)%N, (c <=? 57)%N; reflexivity.
Qed.

(** [n] hex digits and nothing else. *)
Lemma hex_run_match (n : nat) (s : JsString) :
  full_match (Repeat n hex_class) s
  = Nat.eqb (length s) n && forallb is_hex_digit s.
Proof.
  apply eq_true_iff_eq.
  rewrite full_match_in_language. unfold hex_class.
  rewrite Repeat_Class_language, andb_true_iff, Nat.eqb_eq, forallb_forall, Forall_forall.
  split; intros [Hl Hf]; (split; [exact Hl |]); intros c Hc;
    [rewrite <- hex_class_test | rewrite hex_class_test]; auto.
Qed.

(** ** The guarded pattern tests *)

Lemma guarded_test (pattern : regex) (v : JsValue) :
  (if negb (isString v) then Return false else RegExp_test pattern v)
  = match text_of v with
    | Some s => Return (full_match pattern s)
    | None => if isString v then Throw (failure_of v) else Return false
    end.
Proof.
  destruct (isString v) eqn:E; simpl.
  - unfold RegExp_test. rewrite text_of_ToString by assumption.
    destruct (text_of v); reflexivity.
  - destruct (text_of v) eqn:T; [| reflexivity].
    apply text_of_isString in T. congruence.
Qed.

(* ================================================================= *)
(** * Type and format predicates *)

(** A guarded test of [n] hex digits: when it gives true and when it
    gives false. *)
Lemma hex_run_test_spec (n : nat) (v : JsValue) :
  let r := if negb (isString v) then Return false
           else RegExp_test (Repeat n hex_class) v in
  (r = Return true
   <-> isString v = true
       /\ exists s, text_of v = Some s
                    /\ length s = n
                    /\ Forall (fun c => is_hex_digit c = true) s)
  /\ (r = Return false
      <-> isString v = false
          \/ exists s, text_of v = Some s
                       /\ (length s <> n
                           \/ Exists (fun c => is_hex_digit c = false) s)).
Proof.
  cbv zeta. rewrite guarded_test.
  destruct (text_of v) as [s|] eqn:T.
  - rewrite hex_run_match.
    pose proof (text_of_isString v s T) as Hs. split.
    + split.
      * intros [= H]. apply andb_true_iff in H as [Hl Hf].
        apply Nat.eqb_eq in Hl. rewrite forallb_forall in Hf.
        split; [assumption |]. exists s. rewrite Forall_forall. auto.
      * intros (_ & s' & [= <-] & Hl & Hf). f_equal.
        apply andb_true_iff. rewrite Nat.eqb_eq, forallb_forall.
        rewrite Forall_forall in Hf. auto.
    + split.
      * intros [= H]. right. exists s. split; [reflexivity |].
        apply andb_false_iff in H as [H | H].
        -- left. apply Nat.eqb_neq. assumption.
        -- right. apply forallb_false_Exists. assumption.
      * intros [H | (s' & [= <-] & H)]; [congruence |]. f_equal.
        apply andb_false_iff. destruct H as [H | H].
        -- left. apply Nat.eqb_neq. assumption.
        -- right. apply forallb_false_Exists. assumption.
  - destruct (isString v) eqn:E; split; split;
      try discriminate; try (intros (_ & s & [=] & _)); auto;
      intros [[=] | (s & [=] & _)].
Qed.

(** X20. [isKeyId] returns true exactly for a textual value that
    consists of sixteen hexadecimal digits, upper or lower case, and
    nothing else; it returns false exactly for a value that is not
    textual or whose characters differ in number from sixteen or include
    one that is not a hexadecimal digit. *)
Theorem isKeyId_spec (v : JsValue) :
  (isKeyId v = Return true
   <-> isString v = true
       /\ exists s, text_of v = Some s
                    /\ length s = 16
                    /\ Forall (fun c => is_hex_digit c = true) s)
  /\ (isKeyId v = Return false
      <-> isString v = false
          \/ exists s, text_of v = Some s
                       /\ (length s <> 16
                           \/ Exists (fun c => is_hex_digit c = false) s)).
Proof. exact (hex_run_test_spec 16 v). Qed.

(** X19. [isFingerPrint] returns true exactly for a textual value that
    consists of forty hexadecimal digits, upper or lower case, and
    nothing else; it returns false exactly for a value that is not
    textual or whose characters differ in number from forty or include
    one that is not a hexadecimal digit. *)
Theorem isFingerPrint_spec (v : JsValue) :
  (isFingerPrint v = Return true
   <-> isString v = true
       /\ exists s, text_of v = Some s
                    /\ length s = 40
                    /\ Forall (fun c => is_hex_digit c = true) s)
  /\ (isFingerPrint v = Return false
      <-> isString v = false
          \/ exists s, text_of v = Some s
                       /\ (length s <> 40
                           \/ Exists (fun c => is_hex_digit c = false) s)).
Proof. exact (hex_run_test_spec 40 v). Qed.

(** [isEmail] returns true exactly for a textual value whose characters
    are in the language of the pattern. *)
Theorem isEmail_spec (v : JsValue) :
  isEmail v = Return true
  <-> exists s, text_of v = Some s /\ in_language email_pattern s.
Proof.
  unfold isEmail. rewrite guarded_test.
  destruct (text_of v) as [s|] eqn:T.
  - split.
    + intros [= H]. exists s. rewrite <- full_match_in_language. auto.
    + intros (s' & [= <-] & H). f_equal. apply full_match_in_language, H.
  - split; [| intros (s & [=] & _)].
    destruct (isString v); discriminate.
Qed.

(** C4. [isTrue] is true exactly when the value is textual and is the
    string literal true, or is not textual and converts to the boolean
    true; so it holds of the string true and of 1, and fails for the
    string false, for 0 and for the empty string. *)
Theorem isTrue_spec :
  (forall v : JsValue,
      isTrue v = true
      <-> (isString v = true /\ v = JString (lit "true"))
          \/ (isString v = false /\ ToBoolean v = true))
  /\ isTrue (JString (lit "true")) = true
  /\ isTrue (JString (lit "false")) = false
  /\ isTrue (JNumber (Number_of_Z 1)) = true
  /\ isTrue (JNumber (Number_of_Z 0)) = false
  /\ isTrue (JString []) = false.
Proof.
  split; [| repeat split; reflexivity].
  intros v. unfold isTrue.
  destruct (isString v); rewrite ?strict_equal_string_true.
  - split; [auto | intros [[_ H] | [[=] _]]; exact H].
  - split; [auto | intros [[[=] _] | [_ H]]; exact H].
Qed.

(** X21. For an input that is not textual, [isKeyId], [isFingerPrint]
    and [isEmail] return false and [isTrue] returns the boolean
    conversion of the input; for a textual input that has characters (a
    primitive string, a String object) the three pattern tests return
    the boolean their pattern gives on those characters and [isTrue]
    compares with the literal true.  None of them raises on such
    inputs. *)
Theorem predicates_total (v : JsValue) :
  (isString v = false ->
     isKeyId v = Return false
     /\ isFingerPrint v = Return false
     /\ isEmail v = Return false
     /\ isTrue v = ToBoolean v)
  /\ (forall s, text_of v = Some s ->
        isString v = true
        /\ isKeyId v = Return (full_match keyid_pattern s)
        /\ isFingerPrint v = Return (full_match fingerprint_pattern s)
        /\ isEmail v = Return (full_match email_pattern s)
        /\ isTrue v = strict_equal_string v (lit "true")).
Proof.
  unfold isKeyId, isFingerPrint, isEmail, isTrue.
  rewrite !guarded_test. split.
  - intros E. rewrite E.
    destruct (text_of v) eqn:T; [| auto].
    apply text_of_isString in T. congruence.
  - intros s T. rewrite T, (text_of_isString v s T). auto.
Qed.

(* ================================================================= *)
(** * The error helper *)

(** C8. [throw] never returns normally, whatever the status and the
    message; given a message string it raises an error with that message,
    the given status as its [status] and [true] as its [expose]. *)
Theorem throw_always_raises :
  (forall status message : JsValue, returns (throw status message) = false)
  /\ (forall (status : JsValue) (text : JsString),
         throw status (JString text)
         = Throw (Thrown {| err_message := text;
                            err_status := status;
                            err_expose := JBoolean true |})).
Proof.
  split.
  - intros status message. unfold throw.
    destruct (new_Error message); reflexivity.
  - intros status text. reflexivity.
Qed.

(* ================================================================= *)
(** * Request-context helpers *)

(** C1. [checkHTTPS] holds exactly when the context is secure or its
    [X-Forwarded-Proto] header is the string https. *)
Theorem checkHTTPS_iff (ctx : RequestContext) :
  checkHTTPS ctx = true
  <-> secure ctx = true
      \/ get ctx (lit "X-Forwarded-Proto") = JString (lit "https").
Proof.
  unfold checkHTTPS.
  rewrite orb_true_iff, strict_equal_string_true. reflexivity.
Qed.

(** C9. [checkHTTP] holds exactly when the context is not secure and the
    forwarded protocol is http, and then [checkHTTPS] does not hold: the
    two are never both true. *)
Theorem checkHTTP_excludes_checkHTTPS (ctx : RequestContext) :
  (checkHTTP ctx = true
   <-> secure ctx = false
       /\ get ctx (lit "X-Forwarded-Proto") = JString (lit "http"))
  /\ checkHTTP ctx && checkHTTPS ctx = false.
Proof.
  unfold checkHTTP, checkHTTPS. split.
  - rewrite andb_true_iff, negb_true_iff, strict_equal_string_true. reflexivity.
  - destruct (secure ctx); simpl; [reflexivity |].
    destruct (strict_equal_string (get ctx (lit "X-Forwarded-Proto")) (lit "http"))
      eqn:E; simpl; [| reflexivity].
    apply strict_equal_string_true in E. rewrite E. reflexivity.
Qed.

(** C7. The protocol of [origin] is https when [checkHTTPS] holds and
    the protocol of the context otherwise; its host is the host of the
    context. *)
Theorem origin_spec (ctx : RequestContext) :
  origin_protocol (origin ctx)
  = (if checkHTTPS ctx then lit "https" else protocol ctx)
  /\ origin_host (origin ctx) = host ctx.
Proof. split; reflexivity. Qed.

(** C6. [hkpUrl] is the scheme hkps when [checkHTTPS] holds and hkp
    otherwise, then the separator and the host, and nothing after it. *)
Theorem hkpUrl_spec (ctx : RequestContext) :
  hkpUrl ctx
  = lit (if checkHTTPS ctx then "hkps" else "hkp") ++ lit "://" ++ host ctx.
Proof. unfold hkpUrl. destruct (checkHTTPS ctx); reflexivity. Qed.

(* ================================================================= *)
(** * The random hex generator *)

Lemma length_read (n : nat) (src : Entropy) : length (read n src) = n.
Proof. unfold read. rewrite length_map, length_seq. reflexivity. Qed.

Lemma length_hex_text (buf : list byte) :
  length (hex_text buf) = 2 * length buf.
Proof.
  induction buf as [|b buf IH]; simpl; [reflexivity |].
  rewrite IH. lia.
Qed.

Lemma hex_of_byte_lower (b : byte) :
  Forall (fun c => is_lower_hex_digit c = true) (hex_of_byte b).
Proof. destruct b; repeat constructor. Qed.

(** The two digits of a byte are its high and its low half. *)
Lemma hex_of_byte_value (b : byte) :
  exists hi lo,
    hex_of_byte b = [hi; lo]
    /\ (16 * hex_value hi + hex_value lo = Byte.to_N b)%N.
Proof. destruct b; do 2 eexists; split; reflexivity. Qed.

Lemma hex_text_lower (buf : list byte) :
  Forall (fun c => is_lower_hex_digit c = true) (hex_text buf).
Proof.
  induction buf as [|b buf IH]; [constructor |].
  change (hex_text (b :: buf))
    with (hex_of_byte b ++ hex_text buf).
  apply Forall_app. split; [apply hex_of_byte_lower | exact IH].
Qed.

Lemma hex_of_entropy_shape (n : nat) (src : Entropy) :
  length (fst (hex_of_entropy n src)) = 2 * n
  /\ Forall (fun c => is_lower_hex_digit c = true) (fst (hex_of_entropy n src)).
Proof.
  simpl. rewrite length_hex_text, length_read.
  split; [reflexivity | apply hex_text_lower].
Qed.

Lemma is_byte_count_accepted (x : JsNumber) (n : nat) :
  is_byte_count x n ->
  (Number_isNaN x || Number_above x kMaxLength || Number_negative x) = false
  /\ ToUint32 x = N.of_nat n.
Proof.
  intros [Hmax Hx].
  destruct x as [sg | sg | | sg m e]; try contradiction.
  - subst n. split; reflexivity.
  - destruct sg; [contradiction |].
    unfold kMaxLength in *. simpl. unfold ToUint32.
    destruct (0 <=? e)%Z eqn:E.
    + apply Z.leb_le in E.
      rewrite Z.shiftl_mul_pow2 by assumption. rewrite <- Hx.
      split.
      * rewrite orb_false_r. apply Z.ltb_ge. assumption.
      * rewrite Z.mod_small by lia. lia.
    + apply Z.leb_gt in E.
      rewrite Z.shiftl_mul_pow2 by lia.
      rewrite Z.shiftl_div_pow2 by lia. rewrite Hx.
      assert (0 < 2 ^ (- e))%Z by (apply Z.pow_pos_nonneg; lia).
      rewrite Z.div_mul by lia.
      split.
      * rewrite orb_false_r. apply Z.ltb_ge. nia.
      * rewrite Z.mod_small by lia. lia.
Qed.

Lemma sixteen_is_byte_count : is_byte_count (Number_of_Z 16) 16.
Proof. split; [unfold kMaxLength; lia | reflexivity]. Qed.

Lemma zero_is_byte_count : is_byte_count (Number_of_Z 0) 0.
Proof. split; [unfold kMaxLength; lia | reflexivity]. Qed.

(** [random] on a number that is truthy and a size that
    [crypto.randomBytes] accepts: the text of that many bytes when it
    fits in a string, the error of the buffer when it does not. *)
Lemma random_of_size (x : JsNumber) (k : N) (src : Entropy) :
  ToBoolean (JNumber x) = true ->
  (Number_isNaN x || Number_above x kMaxLength || Number_negative x) = false ->
  ToUint32 x = k ->
  random (JNumber x) src
  = if (2 * k <=? MAX_STRING_LENGTH)%N
    then Return (hex_of_entropy (N.to_nat k) src)
    else Throw ERR_STRING_TOO_LONG.
Proof.
  intros Ht Hok Hk. unfold random, js_or. rewrite Ht.
  unfold randomBytes. rewrite Hok, Hk. cbn [bind fst snd].
  unfold Buffer_toString_hex. rewrite length_read, N2Nat.id.
  destruct (2 * k <=? MAX_STRING_LENGTH)%N; reflexivity.
Qed.

(** C2, as the code has it.  For a byte count [n] other than zero whose
    text of [2 * n] characters fits in a string, [random] returns the
    lowercase hexadecimal text of the next [n] random bytes: [2 * n]
    characters, each one of [0-9a-f]. *)
Theorem random_hex_of_byte_count (x : JsNumber) (n : nat) (src : Entropy) :
  is_byte_count x n ->
  n <> 0 ->
  (2 * N.of_nat n <= MAX_STRING_LENGTH)%N ->
  random (JNumber x) src = Return (hex_of_entropy n src)
  /\ length (fst (hex_of_entropy n src)) = 2 * n
  /\ Forall (fun c => is_lower_hex_digit c = true) (fst (hex_of_entropy n src)).
Proof.
  intros Hx Hn Hfit.
  split; [| apply hex_of_entropy_shape].
  destruct (is_byte_count_accepted x n Hx) as [Hok Hsize].
  assert (Htruthy : ToBoolean (JNumber x) = true).
  { destruct Hx as [_ Hx].
    destruct x; try contradiction; reflexivity. }
  rewrite (random_of_size x (N.of_nat n) src Htruthy Hok Hsize).
  apply N.leb_le in Hfit. rewrite Hfit, Nat2N.id. reflexivity.
Qed.

Lemma is_byte_count_of_N (x : JsNumber) (k : N) :
  (Z.of_N k <= kMaxLength)%Z ->
  match x with
  | S754_zero _ => k = 0%N
  | S754_finite false m e =>
      if (0 <=? e)%Z
      then Z.of_N k = (Zpos m * 2 ^ e)%Z
      else Zpos m = (Z.of_N k * 2 ^ (- e))%Z
  | _ => False
  end ->
  is_byte_count x (N.to_nat k).
Proof.
  intros Hmax Hx. unfold is_byte_count. rewrite N_nat_Z.
  split; [exact Hmax |].
  destruct x as [sg | sg | | sg m e]; try exact Hx.
  subst k. reflexivity.
Qed.

(** C10. Every falsy byte count, the omitted one and zero among them,
    gets the default of 16 bytes: the result is the hexadecimal text of
    the next 16 random bytes, 32 characters of [0-9a-f], the same as for
    an omitted count. *)
Theorem random_falsy_default (bytes : JsValue) (src : Entropy) :
  ToBoolean bytes = false ->
  random bytes src = Return (hex_of_entropy 16 src)
  /\ random bytes src = random JUndefined src
  /\ length (fst (hex_of_entropy 16 src)) = 32
  /\ Forall (fun c => is_lower_hex_digit c = true) (fst (hex_of_entropy 16 src)).
Proof.
  intros Hfalsy.
  assert (Hdefault : random bytes src = Return (hex_of_entropy 16 src)).
  { unfold random, js_or. rewrite Hfalsy. reflexivity. }
  split; [exact Hdefault |].
  split; [rewrite Hdefault; reflexivity |].
  exact (hex_of_entropy_shape 16 src).
Qed.

(* ================================================================= *)
(** * The examples of the specification *)

Example isKeyId_examples :
  isKeyId (JString (lit "0123456789abcDEF")) = Return true
  /\ isKeyId (new_String (lit "0123456789abcDEF")) = Return true
  /\ isKeyId (JString (lit "0123456789abcDE")) = Return false
  /\ isKeyId (JString (lit "0123456789abcDEFG")) = Return false
  /\ isKeyId (JString (lit "0123456789abcDEG")) = Return false
  /\ isKeyId (JString (lit "0123456789abcDEF" ++ [10%N])) = Return false
  /\ isKeyId (JNumber (Number_of_Z 1234567890123456)) = Return false.
Proof. repeat split; reflexivity. Qed.

Example isEmail_examples :
  isEmail (JString (lit "user@example.com")) = Return true
  /\ isEmail (JString (lit "not-an-email")) = Return false
  /\ isEmail (JString (lit "first.last@[192.168.0.1]")) = Return true
  /\ isEmail (JString (lit "first..last@example.com")) = Return false
  /\ isEmail JUndefined = Return false.
Proof. repeat split; vm_compute; reflexivity. Qed.

(** C3. [isKeyId] does not return false for every value that is no
    string of sixteen hexadecimal digits.  [Object.create(String.prototype)]
    is an object and no string by [typeof]; it passes the [isString]
    guard, since [String.prototype] is on its chain; it holds no
    characters; and the pattern test of [isKeyId] raises the [TypeError]
    of its conversion to a string. *)
Theorem isKeyId_raises_on_stringless_object :
  typeof Object_create_String_prototype = lit "object"
  /\ isString Object_create_String_prototype = true
  /\ text_of Object_create_String_prototype = None
  /\ isKeyId Object_create_String_prototype = Throw TypeError.
Proof. repeat split; reflexivity. Qed.

(** C5. The predicates are not total.  An object that inherits from
    [String.prototype] without being a String passes the [isString]
    guard, and each of the three pattern tests then raises what its
    conversion to a string raises: the [TypeError] of the runtime for
    [Object.create(String.prototype)], the object's own exception for an
    object whose [toString] throws. *)
Theorem predicates_raise_on_stringless_object :
  (isString Object_create_String_prototype = true
   /\ isKeyId Object_create_String_prototype = Throw TypeError
   /\ isFingerPrint Object_create_String_prototype = Throw TypeError
   /\ isEmail Object_create_String_prototype = Throw TypeError)
  /\ (let own := JObject (mkObject true false None (MethodThrew 1)) in
      isString own = true
      /\ isKeyId own = Throw (ThrownValue 1)
      /\ isFingerPrint own = Throw (ThrownValue 1)
      /\ isEmail own = Throw (ThrownValue 1)).
Proof. repeat split; reflexivity. Qed.

(** A String object is textual but not strictly equal to a literal; a
    plain object is not textual and converts to true. *)
Example isTrue_of_objects :
  isString (new_String (lit "true")) = true
  /\ isTrue (new_String (lit "true")) = false
  /\ isString plain_object = false
  /\ isTrue plain_object = true
  /\ isKeyId plain_object = Return false.
Proof. repeat split; reflexivity. Qed.

Example forwarded_https_example :
  let ctx := example_context false (JString (lit "https")) in
  checkHTTPS ctx = true /\ checkHTTP ctx = false
  /\ hkpUrl ctx = lit "hkps://example.com"
  /\ origin ctx = mkOrigin (lit "https") (lit "example.com").
Proof. repeat split; reflexivity. Qed.

Example hkpUrl_examples :
  hkpUrl (example_context true (JString [])) = lit "hkps://example.com"
  /\ hkpUrl (example_context false (JString [])) = lit "hkp://example.com"
  /\ hkpUrl (example_context false JUndefined) = lit "hkp://example.com"
  /\ hkpUrl (example_context false (JString (lit "http"))) = lit "hkp://example.com".
Proof. repeat split; reflexivity. Qed.

Example url_examples :
  url (mkOrigin (lit "https") (lit "example.com")) (JString (lit "/path"))
  = Return (lit "https://example.com/path")
  /\ url (mkOrigin (lit "https") (lit "example.com")) JUndefined
     = Return (lit "https://example.com").
Proof. split; reflexivity. Qed.

(* ================================================================= *)
(** * What a pattern tells about its matches *)

Lemma in_language_alphabet (r : regex) (s : JsString) :
  in_language r s -> Forall (fun c => may_match r c = true) s.
Proof.
  induction 1 as [| neg rs c Hc | r1 r2 s1 s2 _ IH1 _ IH2 | r1 r2 s _ IH
                  | r1 r2 s _ IH | r | r s1 s2 _ IH1 _ IH2]; simpl.
  - constructor.
  - repeat constructor. assumption.
  - apply Forall_app. split.
    + apply (Forall_impl _ (fun c Hc => proj2 (orb_true_iff _ _) (or_introl Hc)) IH1).
    + apply (Forall_impl _ (fun c Hc => proj2 (orb_true_iff _ _) (or_intror Hc)) IH2).
  - apply (Forall_impl _ (fun c Hc => proj2 (orb_true_iff _ _) (or_introl Hc)) IH).
  - apply (Forall_impl _ (fun c Hc => proj2 (orb_true_iff _ _) (or_intror Hc)) IH).
  - constructor.
  - apply Forall_app. split; assumption.
Qed.

Lemma in_language_min_length (r : regex) (s : JsString) :
  in_language r s -> exists n, min_length r = Some n /\ n <= length s.
Proof.
  induction 1 as [| neg rs c Hc | r1 r2 s1 s2 _ IH1 _ IH2 | r1 r2 s _ IH
                  | r1 r2 s _ IH | r | r s1 s2 _ IH1 _ IH2]; simpl.
  - exists 0. auto.
  - exists 1. auto.
  - destruct IH1 as (a & -> & Ha), IH2 as (b & -> & Hb).
    exists (a + b). rewrite length_app. split; [reflexivity | lia].
  - destruct IH as (a & -> & Ha). destruct (min_length r2) as [b|].
    + exists (Nat.min a b). split; [reflexivity | lia].
    + exists a. auto.
  - destruct IH as (b & -> & Hb). destruct (min_length r1) as [a|].
    + exists (Nat.min a b). split; [reflexivity | lia].
    + exists b. auto.
  - exists 0. auto.
  - exists 0. split; [reflexivity | lia].
Qed.

Lemma Star_Class_intro neg rs (s : JsString) :
  Forall (fun c => class_test neg rs c = true) s ->
  in_language (Star (Class neg rs)) s.
Proof.
  induction 1 as [|c s Hc _ IH]; [constructor |].
  change (c :: s) with ([c] ++ s).
  apply L_Star_app; [constructor; assumption | exact IH].
Qed.

Lemma Plus_Class_intro neg rs (s : JsString) :
  s <> [] ->
  Forall (fun c => class_test neg rs c = true) s ->
  in_language (Plus (Class neg rs)) s.
Proof.
  intros Hne Hs. destruct s as [|c s]; [congruence |].
  inversion Hs; subst.
  change (c :: s) with ([c] ++ s).
  apply L_Seq; [constructor; assumption | apply Star_Class_intro; assumption].
Qed.

Lemma AtLeast_Class_intro neg rs (n : nat) (s : JsString) :
  n <= length s ->
  Forall (fun c => class_test neg rs c = true) s ->
  in_language (AtLeast n (Class neg rs)) s.
Proof.
  intros Hn Hs. rewrite <- (firstn_skipn n s).
  rewrite <- (firstn_skipn n s) in Hs. apply Forall_app in Hs as [H1 H2].
  apply L_Seq.
  - apply Repeat_Class_language. split; [| exact H1].
    rewrite length_firstn. lia.
  - apply Star_Class_intro. exact H2.
Qed.

(** ** The classes of the email pattern *)

Lemma email_pattern_parts :
  email_pattern = Seq email_local_part (Seq (Chr "@") email_domain_part).
Proof. reflexivity. Qed.

Lemma at_sign_class (c : CodeUnit) :
  class_test false [one "@"] c = true <-> c = 64%N.
Proof.
  unfold_classes. bool_to_prop. lia.
Qed.

Lemma domain_alphabet (c : CodeUnit) :
  may_match email_domain_part c = true -> is_domain_char c = true.
Proof.
  intros H. unfold_classes. bool_to_prop. lia.
Qed.

Lemma email_alphabet_no_line_terminator (c : CodeUnit) :
  may_match email_pattern c = true -> is_line_terminator c = false.
Proof.
  intros H. destruct (is_line_terminator c) eqn:E; [| reflexivity].
  unfold is_line_terminator in E. bool_to_prop.
  destruct E as [[[-> | ->] | ->] | ->]; vm_compute in H; discriminate H.
Qed.

Lemma label_char_in_label_class (c : CodeUnit) :
  is_label_char c = true ->
  class_test false [range "a" "z"; range "A" "Z"; one "-"; range "0" "9"] c = true.
Proof.
  intros H. unfold_classes. bool_to_prop. lia.
Qed.

Lemma label_char_in_local_class (c : CodeUnit) :
  is_label_char c = true ->
  class_test true
    ([one "<"; one ">"; one "("; one ")"; one "["; one "]"; one "\";
      one "."; one ","; one ";"; one ":"]
     ++ white_space ++ [one "@"; (34, 34)%N]) c = true.
Proof.
  intros H. unfold_classes. bool_to_prop. lia.
Qed.

Lemma letter_in_letter_class (c : CodeUnit) :
  is_letter c = true ->
  class_test false [range "a" "z"; range "A" "Z"] c = true.
Proof.
  intros H. unfold_classes. bool_to_prop. lia.
Qed.

Lemma isEmail_text (v : JsValue) :
  isEmail v
  = match text_of v with
    | Some s => Return (full_match email_pattern s)
    | None => if isString v then Throw (failure_of v) else Return false
    end.
Proof. unfold isEmail. apply guarded_test. Qed.

(* ================================================================= *)
(** * More on the format predicates *)

(** X1. [isString] accepts the primitive strings and the objects that
    inherit from [String.prototype], whether callable or not, and
    rejects every other value. *)
Theorem isString_table (v : JsValue) :
  isString v
  = match v with
    | JString _ => true
    | JObject o => String_prototype_in_chain o
    | JUndefined | JNull | JBoolean _ | JNumber _ | JSymbol => false
    end.
Proof.
  destruct v as [| | b | x | s | | o]; try reflexivity.
  unfold isString, typeof. destruct (callable o); reflexivity.
Qed.

(** X2. On objects [isTrue] looks at nothing but the prototype chain:
    it is false for every object that inherits from [String.prototype],
    whatever string it holds, and true for every other object; on
    booleans it is the identity. *)
Theorem isTrue_of_objects_and_booleans :
  (forall o : JsObject, isTrue (JObject o) = negb (String_prototype_in_chain o))
  /\ (forall b : bool, isTrue (JBoolean b) = b).
Proof.
  split; [| reflexivity].
  intros o. unfold isTrue, isString, typeof.
  destruct (callable o), (String_prototype_in_chain o) eqn:E;
    simpl; rewrite E; reflexivity.
Qed.

Lemma isKeyId_text (v : JsValue) :
  isKeyId v
  = match text_of v with
    | Some s => Return (Nat.eqb (length s) 16 && forallb is_hex_digit s)
    | None => if isString v then Throw (failure_of v) else Return false
    end.
Proof.
  unfold isKeyId, keyid_pattern. rewrite guarded_test.
  destruct (text_of v); [rewrite hex_run_match |]; reflexivity.
Qed.

Lemma isFingerPrint_text (v : JsValue) :
  isFingerPrint v
  = match text_of v with
    | Some s => Return (Nat.eqb (length s) 40 && forallb is_hex_digit s)
    | None => if isString v then Throw (failure_of v) else Return false
    end.
Proof.
  unfold isFingerPrint, fingerprint_pattern. rewrite guarded_test.
  destruct (text_of v); [rewrite hex_run_match |]; reflexivity.
Qed.

Lemma is_hex_digit_to_lower (c : CodeUnit) :
  is_hex_digit (to_lower c) = is_hex_digit c.
Proof.
  unfold to_lower. destruct ((65 <=? c) && (c <=? 90))%N eqn:E; [| reflexivity].
  apply eq_true_iff_eq. unfold is_hex_digit. bool_to_prop. lia.
Qed.

Lemma is_hex_digit_to_upper (c : CodeUnit) :
  is_hex_digit (to_upper c) = is_hex_digit c.
Proof.
  unfold to_upper. destruct ((97 <=? c) && (c <=? 122))%N eqn:E; [| reflexivity].
  apply eq_true_iff_eq. unfold is_hex_digit. bool_to_prop. lia.
Qed.

Lemma forallb_hex_map (g : CodeUnit -> CodeUnit) (s : JsString) :
  (forall c, is_hex_digit (g c) = is_hex_digit c) ->
  forallb is_hex_digit (map g s) = forallb is_hex_digit s.
Proof.
  intros Hg. induction s as [|c s IH]; simpl; [reflexivity |].
  rewrite Hg, IH. reflexivity.
Qed.

(** X3. [isKeyId] and [isFingerPrint] do not tell upper from lower
    case: changing the case of the letters of a string changes neither
    answer. *)
Theorem hex_ids_case_insensitive (s : JsString) :
  isKeyId (JString (map to_lower s)) = isKeyId (JString s)
  /\ isKeyId (JString (map to_upper s)) = isKeyId (JString s)
  /\ isFingerPrint (JString (map to_lower s)) = isFingerPrint (JString s)
  /\ isFingerPrint (JString (map to_upper s)) = isFingerPrint (JString s).
Proof.
  rewrite !isKeyId_text, !isFingerPrint_text. cbn [text_of].
  rewrite !length_map.
  rewrite (forallb_hex_map to_lower s is_hex_digit_to_lower).
  rewrite (forallb_hex_map to_upper s is_hex_digit_to_upper).
  auto.
Qed.

(** X4. No value is both a key id and a fingerprint. *)
Theorem key_id_and_fingerprint_disjoint (v : JsValue) :
  (isKeyId v = Return true -> isFingerPrint v = Return false)
  /\ (isFingerPrint v = Return true -> isKeyId v = Return false).
Proof.
  rewrite isKeyId_text, isFingerPrint_text.
  destruct (text_of v) as [s|].
  - split; intros [= H]; f_equal;
      apply andb_true_iff in H as [Hl _]; apply Nat.eqb_eq in Hl;
      rewrite Hl; reflexivity.
  - destruct (isString v); split; intros H; (discriminate || reflexivity).
Qed.

(* ================================================================= *)
(** * More on [isEmail] *)

Lemma email_text_parts (s : JsString) :
  in_language email_pattern s ->
  exists local domain,
    s = local ++ lit "@" ++ domain
    /\ in_language email_local_part local
    /\ in_language email_domain_part domain.
Proof.
  rewrite email_pattern_parts. intros H.
  apply in_language_Seq_inv in H as (l & rest & -> & Hl & H).
  apply in_language_Seq_inv in H as (a & d & -> & Ha & Hd).
  apply in_language_Class_inv in Ha as (c & -> & Hc).
  apply at_sign_class in Hc as ->.
  exists l, d. auto.
Qed.

(** X5. An address that [isEmail] accepts is a local part of at least
    one character, an at sign, and a domain of at least four characters,
    all of them letters, digits, hyphens, dots or square brackets; so it
    has at least six characters, and the domain holds no further at sign
    and no white space. *)
Theorem isEmail_has_at_sign (v : JsValue) :
  isEmail v = Return true ->
  exists local domain,
    text_of v = Some (local ++ lit "@" ++ domain)
    /\ 1 <= length local
    /\ 4 <= length domain
    /\ Forall (fun c => is_domain_char c = true) domain.
Proof.
  rewrite isEmail_text.
  destruct (text_of v) as [s|]; [| destruct (isString v); discriminate].
  intros [= H]. apply full_match_in_language, email_text_parts in H.
  destruct H as (l & d & -> & Hl & Hd).
  exists l, d. split; [reflexivity |].
  destruct (in_language_min_length _ _ Hl) as (n & En & Hn).
  vm_compute in En. injection En as <-.
  destruct (in_language_min_length _ _ Hd) as (m & Em & Hm).
  vm_compute in Em. injection Em as <-.
  repeat split; try assumption.
  apply (Forall_impl _ domain_alphabet), in_language_alphabet, Hd.
Qed.

(** X6. An address that [isEmail] accepts holds no line terminator:
    neither a line feed nor a carriage return nor one of the Unicode line
    and paragraph separators, in the local part or in the domain. *)
Theorem isEmail_no_line_terminator (v : JsValue) :
  isEmail v = Return true ->
  exists s, text_of v = Some s
            /\ Forall (fun c => is_line_terminator c = false) s.
Proof.
  rewrite isEmail_text.
  destruct (text_of v) as [s|]; [| destruct (isString v); discriminate].
  intros [= H]. apply full_match_in_language in H.
  exists s. split; [reflexivity |].
  apply (Forall_impl _ email_alphabet_no_line_terminator), in_language_alphabet, H.
Qed.

Lemma dotted_labels_language (labels : list JsString) :
  Forall (fun l => l <> [] /\ Forall (fun c => is_label_char c = true) l) labels ->
  in_language (Star (Seq (Plus label_char) (Chr "."))) (dotted labels).
Proof.
  induction 1 as [|l labels [Hne Hl] _ IH]; [constructor |].
  change (dotted (l :: labels)) with ((l ++ lit ".") ++ dotted labels).
  apply L_Star_app; [| exact IH].
  apply L_Seq.
  - apply Plus_Class_intro; [exact Hne |].
    apply (Forall_impl _ label_char_in_label_class Hl).
  - constructor. reflexivity.
Qed.

(** X7. [isEmail] accepts every address of the common shape: a local
    part of one or more letters, digits and hyphens, the at sign, one or
    more non-empty labels of letters, digits and hyphens, each followed
    by a dot, and a last label of two or more letters. *)
Theorem isEmail_accepts_plain_addresses
  (local : JsString) (labels : list JsString) (tld : JsString) :
  local <> [] ->
  Forall (fun c => is_label_char c = true) local ->
  labels <> [] ->
  Forall (fun l => l <> [] /\ Forall (fun c => is_label_char c = true) l) labels ->
  2 <= length tld ->
  Forall (fun c => is_letter c = true) tld ->
  isEmail (JString (local ++ lit "@" ++ dotted labels ++ tld)) = Return true.
Proof.
  intros Hlocal Hlc Hlabels Hls Htld Htc.
  rewrite isEmail_text. cbn [text_of]. f_equal.
  apply full_match_in_language. rewrite email_pattern_parts.
  apply L_Seq; [| apply L_Seq].
  - apply L_Alt_l. rewrite <- (app_nil_r local).
    apply L_Seq; [| constructor].
    apply Plus_Class_intro; [exact Hlocal |].
    apply (Forall_impl _ label_char_in_local_class Hlc).
  - constructor. reflexivity.
  - apply L_Alt_r. apply L_Seq.
    + destruct labels as [|l labels]; [congruence |].
      inversion Hls as [|? ? [Hne Hl] Hrest]; subst.
      change (dotted (l :: labels)) with ((l ++ lit ".") ++ dotted labels).
      apply L_Seq; [| apply dotted_labels_language; exact Hrest].
      apply L_Seq.
      * apply Plus_Class_intro; [exact Hne |].
        apply (Forall_impl _ label_char_in_label_class Hl).
      * constructor. reflexivity.
    + apply AtLeast_Class_intro; [exact Htld |].
      apply (Forall_impl _ letter_in_letter_class Htc).
Qed.

(** X8. A key id or a fingerprint is never an email address. *)
Theorem hex_ids_are_no_emails (v : JsValue) :
  isKeyId v = Return true \/ isFingerPrint v = Return true ->
  isEmail v = Return false.
Proof.
  rewrite isKeyId_text, isFingerPrint_text, isEmail_text.
  destruct (text_of v) as [s|];
    [| destruct (isString v); intros [H | H]; (discriminate || reflexivity)].
  intros H.
  assert (Hhex : forallb is_hex_digit s = true).
  { destruct H as [[= H] | [= H]]; apply andb_true_iff in H as [_ H]; exact H. }
  destruct (full_match email_pattern s) eqn:E; [| reflexivity].
  apply full_match_in_language, email_text_parts in E.
  destruct E as (l & d & -> & _ & _).
  rewrite forallb_forall in Hhex.
  specialize (Hhex 64%N). rewrite in_app_iff in Hhex.
  discriminate Hhex. right. left. reflexivity.
Qed.

(* ================================================================= *)
(** * URLs *)

(** X9. For a resource that is a string, the empty one included, [url]
    is the protocol, the separator, the host and the resource, in that
    order and unchanged. *)
Theorem url_of_string (o : Origin) (r : JsString) :
  url o (JString r)
  = Return (origin_protocol o ++ lit "://" ++ origin_host o ++ r).
Proof. unfold url, js_or. destruct r; reflexivity. Qed.

(** X10. A falsy resource is dropped, not written out: for [undefined],
    [null], [false], a zero or NaN the result ends with the host. *)
Theorem url_drops_falsy_resource (o : Origin) (resource : JsValue) :
  ToBoolean resource = false ->
  url o resource = Return (origin_protocol o ++ lit "://" ++ origin_host o).
Proof.
  intros H. unfold url, js_or. rewrite H. simpl.
  rewrite app_nil_r. reflexivity.
Qed.

(** X11. [url] raises exactly when the resource is a symbol or an object
    whose conversion to a string fails; for every other resource it
    returns a string. *)
Theorem url_raises_iff (o : Origin) (resource : JsValue) :
  returns (url o resource) = false
  <-> resource = JSymbol
      \/ exists obj, resource = JObject obj /\ string_conversion obj = None.
Proof.
  unfold url, js_or.
  destruct resource as [| | b | x | s | | obj]; simpl.
  - split; [discriminate | intros [[=] | (? & [=] & _)]].
  - split; [discriminate | intros [[=] | (? & [=] & _)]].
  - destruct b; (split; [discriminate | intros [[=] | (? & [=] & _)]]).
  - destruct x; (split; [discriminate | intros [[=] | (? & [=] & _)]]).
  - destruct s; (split; [discriminate | intros [[=] | (? & [=] & _)]]).
  - split; auto.
  - destruct (string_conversion obj) eqn:E; simpl.
    + split; [discriminate | intros [[=] | (? & [= <-] & H)]]. congruence.
    + split; [| reflexivity]. intros _. right. exists obj. auto.
Qed.

Lemma strict_equal_string_false (v : JsValue) (s : JsString) :
  strict_equal_string v s = false <-> v <> JString s.
Proof.
  rewrite <- strict_equal_string_true. symmetry. apply not_true_iff_false.
Qed.

(** X12. Behind a connection that [checkHTTPS] accepts, the links that
    [url] builds from [origin] start with https, whatever protocol the
    context itself reports. *)
Theorem url_of_origin_https (ctx : RequestContext) (r : JsString) :
  checkHTTPS ctx = true ->
  url (origin ctx) (JString r) = Return (lit "https://" ++ host ctx ++ r).
Proof.
  intros H. unfold url, js_or, origin. rewrite H.
  destruct r; reflexivity.
Qed.

(** X13. For a client that [checkHTTP] reports as plain http, [origin]
    passes the protocol of the context through, and so do the links
    built from it. *)
Theorem origin_of_plain_http (ctx : RequestContext) (r : JsString) :
  checkHTTP ctx = true ->
  origin ctx = mkOrigin (protocol ctx) (host ctx)
  /\ url (origin ctx) (JString r)
     = Return (protocol ctx ++ lit "://" ++ host ctx ++ r).
Proof.
  intros H. unfold checkHTTP in H.
  apply andb_true_iff in H as [Hs Hh].
  apply negb_true_iff in Hs. apply strict_equal_string_true in Hh.
  assert (E : checkHTTPS ctx = false).
  { unfold checkHTTPS. rewrite Hs, Hh. reflexivity. }
  unfold url, js_or, origin. rewrite E.
  split; [reflexivity | destruct r; reflexivity].
Qed.

(** X14. The two checks are not complementary: both fail exactly for a
    context that is not secure and whose forwarded protocol is neither
    the string http nor the string https (a missing header, another
    protocol, another spelling). *)
Theorem neither_http_nor_https (ctx : RequestContext) :
  checkHTTP ctx = false /\ checkHTTPS ctx = false
  <-> secure ctx = false
      /\ get ctx (lit "X-Forwarded-Proto") <> JString (lit "http")
      /\ get ctx (lit "X-Forwarded-Proto") <> JString (lit "https").
Proof.
  unfold checkHTTP, checkHTTPS.
  rewrite <- !strict_equal_string_false.
  destruct (secure ctx); simpl.
  - split; [intros [_ [=]] | intros [[=] _]].
  - tauto.
Qed.

(* ================================================================= *)
(** * More on the error helper *)

(** X15. [throw] raises the tagged error, with the given status and
    [expose] set, when the message converts to a string, which is then
    the message of the error, and when there is no message, which gives
    the empty one.  When the conversion of the message fails, which it
    does for a symbol and for an object whose conversion fails and for
    nothing else, [throw] raises what the conversion raised, as it is:
    the [TypeError] of the runtime or the object's own exception. *)
Theorem throw_propagates_conversion_failure (status message : JsValue) :
  (forall text,
      message <> JUndefined ->
      ToString message = Return text ->
      throw status message
      = Throw (Thrown (mkError text status (JBoolean true))))
  /\ (forall e, ToString message = Throw e -> throw status message = Throw e)
  /\ throw status JUndefined = Throw (Thrown (mkError [] status (JBoolean true)))
  /\ (returns (ToString message) = false
      <-> message = JSymbol
          \/ exists o, message = JObject o /\ string_conversion o = None).
Proof.
  split; [| split; [| split; [reflexivity |]]].
  - intros text Hne H.
    destruct message; [contradiction Hne; reflexivity | ..];
      unfold throw, new_Error; rewrite H; reflexivity.
  - intros e H.
    destruct message; [discriminate H | ..];
      unfold throw, new_Error; rewrite H; reflexivity.
  - destruct message as [| | b | x | s | | o]; simpl;
      try (split; [discriminate | intros [[=] | (? & [=] & _)]]).
    + destruct b; (split; [discriminate | intros [[=] | (? & [=] & _)]]).
    + split; auto.
    + destruct (string_conversion o) eqn:E; simpl.
      * split; [discriminate | intros [[=] | (? & [= <-] & H)]]. congruence.
      * split; [| reflexivity]. intros _. right. exists o. auto.
Qed.

(* ================================================================= *)
(** * More on the random hex generator *)

Lemma randomBytes_inv (size : JsValue) (src : Entropy) buf src' :
  randomBytes size src = Return (buf, src') ->
  exists n, buf = read n src /\ src' = advance n src.
Proof.
  unfold randomBytes. destruct size; try discriminate.
  destruct (_ || _ || _); [discriminate |].
  intros [= <- <-]. eauto.
Qed.

Lemma random_inv (bytes : JsValue) (src : Entropy) s src' :
  random bytes src = Return (s, src') ->
  exists n, s = hex_text (read n src) /\ src' = advance n src.
Proof.
  unfold random.
  destruct (randomBytes _ src) as [[buf src0]|e] eqn:E; [| discriminate].
  cbn [bind fst snd]. unfold Buffer_toString_hex.
  destruct (2 * N.of_nat (length buf) <=? MAX_STRING_LENGTH)%N; [| discriminate].
  cbn [bind]. intros [= <- <-].
  apply randomBytes_inv in E as (n & -> & ->). eauto.
Qed.

Lemma hex_decode_byte (b : byte) (s : JsString) :
  hex_decode (hex_of_byte b ++ s)
  = match hex_decode s with Some bs => Some (b :: bs) | None => None end.
Proof. destruct b; reflexivity. Qed.

Lemma hex_decode_encode (buf : list byte) :
  hex_decode (hex_text buf) = Some buf.
Proof.
  induction buf as [|b buf IH]; [reflexivity |].
  change (hex_text (b :: buf))
    with (hex_of_byte b ++ hex_text buf).
  rewrite hex_decode_byte, IH. reflexivity.
Qed.

(** X16. Whatever the argument, a string that [random] returns is made
    of digits and the letters a to f in lower case, two for each byte
    taken from the random source, and the source is left advanced by
    just those bytes. *)
Theorem random_output_shape (bytes : JsValue) (src : Entropy) s src' :
  random bytes src = Return (s, src') ->
  exists n,
    length s = 2 * n
    /\ Forall (fun c => is_lower_hex_digit c = true) s
    /\ src' = advance n src.
Proof.
  intros H. apply random_inv in H as (n & -> & ->).
  exists n. rewrite length_hex_text, length_read.
  auto using hex_text_lower.
Qed.

(** X17. The string that [random] returns reads back, two digits a
    byte, as exactly the bytes that were taken from the random source:
    the text loses nothing of them. *)
Theorem random_output_decodes (bytes : JsValue) (src : Entropy) s src' :
  random bytes src = Return (s, src') ->
  hex_decode s = Some (read (length s / 2) src).
Proof.
  intros H. apply random_inv in H as (n & -> & _).
  rewrite hex_decode_encode, length_hex_text, length_read.
  rewrite Nat.mul_comm, Nat.div_mul by discriminate. reflexivity.
Qed.

(** X18. [random] converts nothing: a truthy argument that is not a
    number (a numeric string, [true], an object) goes to
    [crypto.randomBytes] as it is and is refused with a [TypeError]. *)
Theorem random_rejects_non_number (bytes : JsValue) (src : Entropy) :
  ToBoolean bytes = true ->
  (forall x, bytes <> JNumber x) ->
  random bytes src = Throw TypeError.
Proof.
  intros Ht Hn. unfold random, js_or. rewrite Ht.
  destruct bytes; try reflexivity.
  exfalso. apply (Hn x). reflexivity.
Qed.

End Util.

(* ================================================================= *)
(** * Concrete runs *)

(** C2 at sixteen bytes: 32 lowercase hexadecimal characters. *)
Lemma random_hex_of_byte_count_witness :
  random (JNumber (Number_of_Z 16)) counting_source
  = Return (lit "000102030405060708090a0b0c0d0e0f", advance 16 counting_source)
  /\ length (lit "000102030405060708090a0b0c0d0e0f") = 2 * 16
  /\ Forall (fun c => is_lower_hex_digit c = true)
       (lit "000102030405060708090a0b0c0d0e0f").
Proof.
  apply (random_hex_of_byte_count (Number_of_Z 16) 16 counting_source
           sixteen_is_byte_count).
  - discriminate.
  - vm_compute. discriminate.
Defined.

(** C2 as stated fails at the byte count zero: the claim promises the
    text of no bytes, the empty string, and [random] returns 32
    characters.  It fails again at 2^28 bytes, a size that
    [crypto.randomBytes] accepts: their text of 2^29 characters is
    longer than a string can be, and [random] raises. *)
Lemma random_byte_count_counterexample :
  (is_byte_count (Number_of_Z 0) 0
   /\ random (JNumber (Number_of_Z 0)) counting_source
      = Return (lit "000102030405060708090a0b0c0d0e0f", advance 16 counting_source)
   /\ random (JNumber (Number_of_Z 0)) counting_source
      <> Return (hex_of_entropy 0 counting_source)
   /\ length (lit "000102030405060708090a0b0c0d0e0f") <> 2 * 0)
  /\ (is_byte_count (Number_of_Z (2 ^ 28)) (N.to_nat (2 ^ 28))
      /\ random (JNumber (Number_of_Z (2 ^ 28))) counting_source
         = Throw ERR_STRING_TOO_LONG).
Proof.
  split.
  - split; [exact zero_is_byte_count |].
    split; [reflexivity |].
    split; [| discriminate].
    intros H. vm_compute in H. discriminate H.
  - split.
    + apply is_byte_count_of_N; vm_compute; [discriminate | reflexivity].
    + rewrite (random_of_size (Number_of_Z (2 ^ 28)) (2 ^ 28) counting_source);
        reflexivity.
Qed.

(** C10 at the byte count zero. *)
Lemma random_falsy_default_witness :
  ToBoolean (JNumber (Number_of_Z 0)) = false
  /\ random (JNumber (Number_of_Z 0)) counting_source
     = Return (lit "000102030405060708090a0b0c0d0e0f", advance 16 counting_source).
Proof.
  split; [reflexivity |].
  exact (proj1 (random_falsy_default (JNumber (Number_of_Z 0)) counting_source eq_refl)).
Defined.

(** X21 on a number and on a string of the wrong shape, for every
    rendering of numbers as text. *)
Lemma predicates_total_witness :
  (isString (JNumber (Number_of_Z 0)) = false
   /\ text_of (JString (lit "true")) = Some (lit "true"))
  /\ forall Number_toString,
      (isKeyId Number_toString (JNumber (Number_of_Z 0)) = Return false
       /\ isFingerPrint Number_toString (JNumber (Number_of_Z 0)) = Return false
       /\ isEmail Number_toString (JNumber (Number_of_Z 0)) = Return false
       /\ isTrue (JNumber (Number_of_Z 0)) = false)
      /\ (isKeyId Number_toString (JString (lit "true")) = Return false
          /\ isFingerPrint Number_toString (JString (lit "true")) = Return false
          /\ isEmail Number_toString (JString (lit "true")) = Return false
          /\ isTrue (JString (lit "true")) = true).
Proof.
  split; [split; reflexivity |].
  intros Number_toString. split.
  - exact (proj1 (predicates_total Number_toString (JNumber (Number_of_Z 0))) eq_refl).
  - exact (proj2 (proj2 (predicates_total Number_toString (JString (lit "true")))
                    (lit "true") eq_refl)).
Defined.

(* ================================================================= *)
(** * Concrete runs of the further properties *)

(** X4 at a key id. *)
Lemma key_id_and_fingerprint_disjoint_witness :
  (forall Number_toString,
      isKeyId Number_toString (JString (lit "0123456789abcDEF")) = Return true)
  /\ (forall Number_toString,
         isFingerPrint Number_toString (JString (lit "0123456789abcDEF"))
         = Return false).
Proof.
  split; [intros; reflexivity |].
  intros Number_toString.
  exact (proj1 (key_id_and_fingerprint_disjoint Number_toString
                  (JString (lit "0123456789abcDEF"))) eq_refl).
Defined.

(** X5 at an address: the text splits at the at sign. *)
Lemma isEmail_has_at_sign_witness :
  (forall Number_toString,
      isEmail Number_toString (JString (lit "user@example.com")) = Return true)
  /\ exists local domain,
      text_of (JString (lit "user@example.com"))
      = Some (local ++ lit "@" ++ domain)
      /\ 1 <= length local
      /\ 4 <= length domain
      /\ Forall (fun c => is_domain_char c = true) domain.
Proof.
  split; [intros; reflexivity |].
  exact (isEmail_has_at_sign (fun _ => [])
           (JString (lit "user@example.com")) eq_refl).
Defined.

(** X6 at an address. *)
Lemma isEmail_no_line_terminator_witness :
  (forall Number_toString,
      isEmail Number_toString (JString (lit "user@example.com")) = Return true)
  /\ exists s,
      text_of (JString (lit "user@example.com")) = Some s
      /\ Forall (fun c => is_line_terminator c = false) s.
Proof.
  split; [intros; reflexivity |].
  exact (isEmail_no_line_terminator (fun _ => [])
           (JString (lit "user@example.com")) eq_refl).
Defined.

(** X7 at the local part user, the labels mail and example, and the
    last label com. *)
Lemma isEmail_accepts_plain_addresses_witness :
  (lit "user" <> [] /\ [lit "mail"; lit "example"] <> [] /\ 2 <= length (lit "com"))
  /\ forall Number_toString,
      isEmail Number_toString (JString (lit "user@mail.example.com"))
      = Return true.
Proof.
  split; [repeat split; (discriminate || (simpl; lia)) |].
  intros Number_toString.
  refine (isEmail_accepts_plain_addresses Number_toString
            (lit "user") [lit "mail"; lit "example"] (lit "com") _ _ _ _ _ _).
  - discriminate.
  - repeat constructor.
  - discriminate.
  - repeat constructor; discriminate.
  - simpl. lia.
  - repeat constructor.
Defined.

(** X8 at a key id. *)
Lemma hex_ids_are_no_emails_witness :
  (forall Number_toString,
      isKeyId Number_toString (JString (lit "0123456789abcDEF")) = Return true)
  /\ (forall Number_toString,
         isEmail Number_toString (JString (lit "0123456789abcDEF"))
         = Return false).
Proof.
  split; [intros; reflexivity |].
  intros Number_toString.
  apply (hex_ids_are_no_emails Number_toString). left. reflexivity.
Defined.

(** X10 at the resource zero. *)
Lemma url_drops_falsy_resource_witness :
  ToBoolean (JNumber (Number_of_Z 0)) = false
  /\ forall Number_toString,
      url Number_toString (mkOrigin (lit "https") (lit "example.com"))
        (JNumber (Number_of_Z 0))
      = Return (lit "https://example.com").
Proof.
  split; [reflexivity |].
  intros Number_toString.
  exact (url_drops_falsy_resource Number_toString
           (mkOrigin (lit "https") (lit "example.com"))
           (JNumber (Number_of_Z 0)) eq_refl).
Defined.

(** X12 at a secure context that reports the protocol http. *)
Lemma url_of_origin_https_witness :
  checkHTTPS (example_context true (JString [])) = true
  /\ forall Number_toString,
      url Number_toString (origin (example_context true (JString [])))
        (JString (lit "/path"))
      = Return (lit "https://example.com/path").
Proof.
  split; [reflexivity |].
  intros Number_toString.
  exact (url_of_origin_https Number_toString
           (example_context true (JString [])) (lit "/path") eq_refl).
Defined.

(** X13 at a context forwarded as http. *)
Lemma origin_of_plain_http_witness :
  checkHTTP (example_context false (JString (lit "http"))) = true
  /\ forall Number_toString,
      origin (example_context false (JString (lit "http")))
      = mkOrigin (lit "http") (lit "example.com")
      /\ url Number_toString
           (origin (example_context false (JString (lit "http"))))
           (JString (lit "/path"))
         = Return (lit "http://example.com/path").
Proof.
  split; [reflexivity |].
  intros Number_toString.
  exact (origin_of_plain_http Number_toString
           (example_context false (JString (lit "http"))) (lit "/path") eq_refl).
Defined.

(** X16 at sixteen bytes. *)
Lemma random_output_shape_witness :
  random (JNumber (Number_of_Z 16)) counting_source
  = Return (lit "000102030405060708090a0b0c0d0e0f", advance 16 counting_source)
  /\ exists n,
      length (lit "000102030405060708090a0b0c0d0e0f") = 2 * n
      /\ Forall (fun c => is_lower_hex_digit c = true)
           (lit "000102030405060708090a0b0c0d0e0f")
      /\ advance 16 counting_source = advance n counting_source.
Proof.
  split; [reflexivity |].
  exact (random_output_shape (JNumber (Number_of_Z 16)) counting_source
           (lit "000102030405060708090a0b0c0d0e0f")
           (advance 16 counting_source) eq_refl).
Defined.

(** X17 at sixteen bytes. *)
Lemma random_output_decodes_witness :
  random (JNumber (Number_of_Z 16)) counting_source
  = Return (lit "000102030405060708090a0b0c0d0e0f", advance 16 counting_source)
  /\ hex_decode (lit "000102030405060708090a0b0c0d0e0f")
     = Some (read 16 counting_source).
Proof.
  split; [reflexivity |].
  exact (random_output_decodes (JNumber (Number_of_Z 16)) counting_source
           (lit "000102030405060708090a0b0c0d0e0f")
           (advance 16 counting_source) eq_refl).
Defined.

(** X18 at the string 16. *)
Lemma random_rejects_non_number_witness :
  ToBoolean (JString (lit "16")) = true
  /\ random (JString (lit "16")) counting_source = Throw TypeError.
Proof.
  split; [reflexivity |].
  apply (random_rejects_non_number (JString (lit "16")) counting_source eq_refl).
  intros x. discriminate.
Defined.

(** X15 at an object whose conversion throws a value of its own, and at
    a message string. *)
Lemma throw_propagates_conversion_failure_witness :
  (forall Number_toString,
      ToString Number_toString throwing_object = Throw (ThrownValue 1))
  /\ (forall Number_toString status,
         throw Number_toString status throwing_object = Throw (ThrownValue 1))
  /\ (forall Number_toString status,
         throw Number_toString status (JString (lit "not found"))
         = Throw (Thrown (mkError (lit "not found") status (JBoolean true)))).
Proof.
  split; [reflexivity |].
  split; intros Number_toString status.
  - exact (proj1 (proj2 (throw_propagates_conversion_failure
                           Number_toString status throwing_object))
             (ThrownValue 1) eq_refl).
  - refine (proj1 (throw_propagates_conversion_failure
                     Number_toString status (JString (lit "not found")))
              (lit "not found") _ eq_refl).
    discriminate.
Defined.
